(** * StdoutLoggerBuilder: the C++ front end that installs the Rust stdout
    logger as the process-wide default logger.

    Sources embedded here:
    - [src/log/stdout_logger_cpp_init/stdout_logger_init.h]
    - [src/log/stdout_logger_cpp_init/stdout_logger_init.cpp]
    - [examples/log_cpp_init/src/main.cpp]

    The builder keeps five [std::optional] members.  [SetAsDefaultLogger]
    turns them into a (pointer, size) pair and four nullable pointers and
    hands them to the foreign function [set_default_logger].  What the
    foreign side can read through those pointers depends on which objects
    are alive at the moment of the call, so the embedding keeps the
    builder object and the automatic (block-scoped) objects of the running
    member function in an explicit memory, and records every foreign call
    together with the memory it was made in. *)

From Stdlib Require Import ZArith NArith List String Ascii Bool Lia.
Import ListNotations.
Local Open Scope string_scope.
Local Open Scope list_scope.

(* ================================================================== *)
(** * stdout_logger_init.h: the data model *)
(* ================================================================== *)

(** [enum class LogLevel].  No enumerator has an initialiser, so they are
    numbered from zero in declaration order. *)
Inductive LogLevel : Set :=
| Off
| Fatal
| Error
| Warn
| Info
| Debug
| Verbose.

(** The value of an enumerator in the underlying type ([int]); this is the
    number the foreign side finds behind a [const LogLevel*]. *)
Definition LogLevel_ordinal (l : LogLevel) : Z :=
  match l with
  | Off => 0
  | Fatal => 1
  | Error => 2
  | Warn => 3
  | Info => 4
  | Debug => 5
  | Verbose => 6
  end%Z.

(** Reading an [int] back as an enumerator; [None] outside the declared
    enumerators. *)
Definition LogLevel_of_ordinal (z : Z) : option LogLevel :=
  match z with
  | 0 => Some Off
  | 1 => Some Fatal
  | 2 => Some Error
  | 3 => Some Warn
  | 4 => Some Info
  | 5 => Some Debug
  | 6 => Some Verbose
  | _ => None
  end%Z.

Definition all_levels : list LogLevel :=
  [Off; Fatal; Error; Warn; Info; Debug; Verbose].

(** The private data members of [class StdoutLoggerBuilder].  A
    [std::string] is a sequence of [char]; Rocq's [string] is a sequence of
    8-bit [ascii], one per byte. *)
Record StdoutLoggerBuilder : Set := mkStdoutLoggerBuilder {
  context_ : option string;
  show_module_ : option bool;
  show_file_ : option bool;
  show_line_ : option bool;
  log_level_ : option LogLevel
}.

(** [StdoutLoggerBuilder builder;] the implicit default constructor
    default-constructs every [std::optional], which leaves it empty. *)
Definition default_constructed : StdoutLoggerBuilder :=
  {| context_ := None;
     show_module_ := None;
     show_file_ := None;
     show_line_ := None;
     log_level_ := None |}.

(** The five settings, by the member that stores them. *)
Inductive Member : Set :=
| m_context
| m_show_module
| m_show_file
| m_show_line
| m_log_level.

Definition Member_eqb (a b : Member) : bool :=
  match a, b with
  | m_context, m_context
  | m_show_module, m_show_module
  | m_show_file, m_show_file
  | m_show_line, m_show_line
  | m_log_level, m_log_level => true
  | _, _ => false
  end.

(** [std::optional::has_value] (also the contextual conversion to [bool]
    used in [if (context_)] and [show_module_ ? ... : ...]). *)
Definition has_value {A : Type} (o : option A) : bool :=
  match o with
  | Some _ => true
  | None => false
  end.

Definition engaged (b : StdoutLoggerBuilder) (m : Member) : bool :=
  match m with
  | m_context => has_value (context_ b)
  | m_show_module => has_value (show_module_ b)
  | m_show_file => has_value (show_file_ b)
  | m_show_line => has_value (show_line_ b)
  | m_log_level => has_value (log_level_ b)
  end.

(* ================================================================== *)
(** * Memory: objects, pointers and lifetimes *)
(* ================================================================== *)

(** A pointer value.  The code forms pointers to two kinds of storage:
    - [&show_module_.value()] and its siblings address the value held
      inside an optional member of the builder object ([member_ptr]);
    - [value.c_str()] addresses the character array owned by a
      [std::string] with automatic storage duration, identified by its
      position on the stack of live automatic objects ([auto_ptr]).
    [member_ptr m_context] is the character array owned by the string in
    [context_]; the code never forms it, it is here so that every member
    has an address. *)
Inductive Ptr : Set :=
| nullptr
| member_ptr (m : Member)
| auto_ptr (slot : nat).

Definition is_null (p : Ptr) : bool :=
  match p with
  | nullptr => true
  | _ => false
  end.

(** What a live object holds. *)
Inductive Object : Set :=
| obj_chars (s : string)
| obj_bool (b : bool)
| obj_level (l : LogLevel).

(** The memory a pointer can be resolved in: the builder object and the
    automatic [std::string] objects that are alive, outermost first.  An
    automatic object is pushed by its declaration and popped when control
    leaves the block that declares it. *)
Record Memory : Set := mkMemory {
  this_object : StdoutLoggerBuilder;
  automatic : list string
}.

(** The object a pointer addresses, if that object is alive.  [None] for
    the null pointer, for an empty optional and for an automatic object
    whose block has been left: reading through such a pointer has no
    defined result. *)
Definition load (m : Memory) (p : Ptr) : option Object :=
  match p with
  | nullptr => None
  | member_ptr m_context => option_map obj_chars (context_ (this_object m))
  | member_ptr m_show_module => option_map obj_bool (show_module_ (this_object m))
  | member_ptr m_show_file => option_map obj_bool (show_file_ (this_object m))
  | member_ptr m_show_line => option_map obj_bool (show_line_ (this_object m))
  | member_ptr m_log_level => option_map obj_level (log_level_ (this_object m))
  | auto_ptr slot => option_map obj_chars (nth_error (automatic m) slot)
  end.

(** A pointer is valid in a memory when it addresses a live object. *)
Definition valid (m : Memory) (p : Ptr) : bool := has_value (load m p).

(** Dereferencing a [const bool*]. *)
Definition load_bool (m : Memory) (p : Ptr) : option bool :=
  match load m p with
  | Some (obj_bool b) => Some b
  | _ => None
  end.

(** Dereferencing a [const LogLevel*]: the enumerator's value as the
    foreign side sees it. *)
Definition load_level (m : Memory) (p : Ptr) : option Z :=
  match load m p with
  | Some (obj_level l) => Some (LogLevel_ordinal l)
  | _ => None
  end.

(** Reading [n] bytes starting at a [const char*].  A read of 0 bytes
    touches no storage and yields the empty text, whatever the pointer.
    A read of more bytes is defined when the pointer addresses a live
    character array of at least [n] bytes. *)
Definition load_chars (m : Memory) (p : Ptr) (n : N) : option string :=
  if (n =? 0)%N
  then Some ""
  else
    match load m p with
    | Some (obj_chars s) =>
        if (n <=? N.of_nat (String.length s))%N
        then Some (substring 0 (N.to_nat n) s)
        else None
    | _ => None
    end.

(* ================================================================== *)
(** * The foreign function and the execution state *)
(* ================================================================== *)

(** The arguments of
    [extern "C" void set_default_logger(const char* context_ptr,
     size_t context_size, const bool* show_module, const bool* show_file,
     const bool* show_line, const LogLevel* log_level)].
    [size_t] is unsigned; the only value ever stored is the size of a
    string, so no arithmetic can wrap and [N] is used. *)
Record Args : Set := mkArgs {
  context_ptr : Ptr;
  context_size : N;
  show_module : Ptr;
  show_file : Ptr;
  show_line : Ptr;
  log_level : Ptr
}.

(** One call across the boundary: its arguments and the memory as it is
    while the call runs.  The callee receives pointers to [const] and
    returns [void]: it can read [during] through the pointers, and nothing
    comes back to the caller. *)
Record BoundaryCall : Set := mkBoundaryCall {
  args : Args;
  during : Memory
}.

Definition arg (m : Member) (a : Args) : Ptr :=
  match m with
  | m_context => context_ptr a
  | m_show_module => show_module a
  | m_show_file => show_file a
  | m_show_line => show_line a
  | m_log_level => log_level a
  end.

Record State : Set := mkState {
  memory : Memory;
  calls : list BoundaryCall
}.

(** The state [main] starts the builder in: a default-constructed builder,
    no automatic object of a member function alive, no call made. *)
Definition initial : State :=
  {| memory := {| this_object := default_constructed; automatic := [] |};
     calls := [] |}.

(** ** A state and exception monad for member functions *)

(** The one exception the member functions could raise:
    [std::optional::value] on an empty optional.  Every member function is
    declared [noexcept], so an exception leaving one would end the
    program. *)
Inductive Exception : Set :=
| bad_optional_access.

Inductive Outcome (A : Type) : Type :=
| Returns (a : A) (st : State)
| Throws (e : Exception).
Arguments Returns {A} a st.
Arguments Throws {A} e.

Definition M (A : Type) : Type := State -> Outcome A.

Definition ret {A : Type} (a : A) : M A := fun st => Returns a st.

Definition bind {A B : Type} (m : M A) (k : A -> M B) : M B :=
  fun st =>
    match m st with
    | Returns a st' => k a st'
    | Throws e => Throws e
    end.

Definition throw {A : Type} (e : Exception) : M A := fun _ => Throws e.

Declare Scope cpp_scope.
Delimit Scope cpp_scope with cpp.
Notation "x <- m ;; k" := (bind m (fun x => k))
  (at level 61, m at next level, right associativity) : cpp_scope.
Notation "m ;; k" := (bind m (fun _ => k))
  (at level 61, right associativity) : cpp_scope.
Local Open Scope cpp_scope.

(** Reading and writing the data members of [*this]. *)
Definition get_this : M StdoutLoggerBuilder :=
  fun st => Returns (this_object (memory st)) st.

Definition put_this (b : StdoutLoggerBuilder) : M unit :=
  fun st =>
    Returns tt
      {| memory := {| this_object := b; automatic := automatic (memory st) |};
         calls := calls st |}.

(** [std::optional::value]: the held value, or [bad_optional_access]. *)
Definition value {A : Type} (o : option A) : M A :=
  match o with
  | Some a => ret a
  | None => throw bad_optional_access
  end.

(** Declaring a [std::string] with automatic storage duration initialised
    from [s]: a new object holding its own copy of the characters, on top
    of the live automatic objects.  The result is the slot that names
    it. *)
Definition declare_string (s : string) : M nat :=
  fun st =>
    Returns (List.length (automatic (memory st)))
      {| memory := {| this_object := this_object (memory st);
                      automatic := automatic (memory st) ++ [s] |};
         calls := calls st |}.

(** Control leaves the innermost block that declared an automatic object:
    the object is destroyed and its storage released. *)
Definition leave_block : M unit :=
  fun st =>
    Returns tt
      {| memory := {| this_object := this_object (memory st);
                      automatic := removelast (automatic (memory st)) |};
         calls := calls st |}.

(** [std::string::c_str] on the automatic string in [slot]. *)
Definition c_str (slot : nat) : Ptr := auto_ptr slot.

(** [std::string::size] on the automatic string in [slot].  The code
    calls it on a live object only; 0 stands for the unspecified result
    on a destroyed one. *)
Definition size (slot : nat) : M N :=
  fun st =>
    match nth_error (automatic (memory st)) slot with
    | Some s => Returns (N.of_nat (String.length s)) st
    | None => Returns 0%N st
    end.

(** The call of the foreign function.  It is recorded with the memory of
    this very moment. *)
Definition set_default_logger (context_ptr : Ptr) (context_size : N)
    (show_module show_file show_line log_level : Ptr) : M unit :=
  fun st =>
    Returns tt
      {| memory := memory st;
         calls := calls st ++
           [ {| args := mkArgs context_ptr context_size
                          show_module show_file show_line log_level;
                during := memory st |} ] |}.

(* ================================================================== *)
(** * stdout_logger_init.cpp: the member functions *)
(* ================================================================== *)

Module StdoutLoggerBuilder.

(** Every setter assigns one member and ends in [return *this;].  The
    reference it returns is the builder the call was made on, which stays
    in the state; chaining [a.Context(x).ShowModule(y)] is the sequence
    [Context x ;; ShowModule y]. *)

(** [context_ = context;] *)
Definition Context (context : string) : M unit :=
  this <- get_this ;;
  put_this {| context_ := Some context;
              show_module_ := show_module_ this;
              show_file_ := show_file_ this;
              show_line_ := show_line_ this;
              log_level_ := log_level_ this |}.

(** [show_module_ = show_module;] *)
Definition ShowModule (show_module : bool) : M unit :=
  this <- get_this ;;
  put_this {| context_ := context_ this;
              show_module_ := Some show_module;
              show_file_ := show_file_ this;
              show_line_ := show_line_ this;
              log_level_ := log_level_ this |}.

(** [show_file_ = show_file;] *)
Definition ShowFile (show_file : bool) : M unit :=
  this <- get_this ;;
  put_this {| context_ := context_ this;
              show_module_ := show_module_ this;
              show_file_ := Some show_file;
              show_line_ := show_line_ this;
              log_level_ := log_level_ this |}.

(** [show_line_ = show_line;] *)
Definition ShowLine (show_line : bool) : M unit :=
  this <- get_this ;;
  put_this {| context_ := context_ this;
              show_module_ := show_module_ this;
              show_file_ := show_file_ this;
              show_line_ := Some show_line;
              log_level_ := log_level_ this |}.

(** [log_level_ = log_level;] *)
Definition LogLevel (log_level : LogLevel) : M unit :=
  this <- get_this ;;
  put_this {| context_ := context_ this;
              show_module_ := show_module_ this;
              show_file_ := show_file_ this;
              show_line_ := show_line_ this;
              log_level_ := Some log_level |}.

(** [cond ? &member_.value() : nullptr] for one of the four scalar
    members: [value()] is evaluated (and could throw) before its address
    is taken; the address is that of the value inside the member. *)
Definition address_of_value {A : Type} (o : option A) (m : Member) : M Ptr :=
  if has_value o
  then _ <- value o ;; ret (member_ptr m)
  else ret nullptr.

(** [[
    const char* context_ptr{nullptr};
    size_t context_size{0};
    if (context_)
    {
        auto value{context_.value()};
        context_ptr = value.c_str();
        context_size = value.size();
    }
    const bool* show_module{show_module_ ? &show_module_.value() : nullptr};
    const bool* show_file{show_file_ ? &show_file_.value() : nullptr};
    const bool* show_line{show_line_ ? &show_line_.value() : nullptr};
    const LogLevel* log_level{log_level_ ? &log_level_.value() : nullptr};
    set_default_logger(context_ptr, context_size,
                       show_module, show_file, show_line, log_level);
    ]]
    [auto value{...}] deduces [std::string], not a reference: [value] is a
    copy with automatic storage duration whose scope is the block of the
    [if].  The two assignments inside the block are the pair the
    conditional returns. *)
Definition SetAsDefaultLogger : M unit :=
  this <- get_this ;;
  context <-
    (if has_value (context_ this)
     then
       v <- value (context_ this) ;;
       value_slot <- declare_string v ;;
       let context_ptr := c_str value_slot in
       context_size <- size value_slot ;;
       leave_block ;;
       ret (context_ptr, context_size)
     else ret (nullptr, 0%N)) ;;
  show_module <- address_of_value (show_module_ this) m_show_module ;;
  show_file <- address_of_value (show_file_ this) m_show_file ;;
  show_line <- address_of_value (show_line_ this) m_show_line ;;
  log_level <- address_of_value (log_level_ this) m_log_level ;;
  set_default_logger (fst context) (snd context)
    show_module show_file show_line log_level.

End StdoutLoggerBuilder.

(* ================================================================== *)
(** * examples/log_cpp_init/src/main.cpp and other callers *)
(* ================================================================== *)

(** [builder.Context("ABCD").ShowModule(true).ShowFile(true)
     .ShowLine(true).SetAsDefaultLogger();] on a default-constructed
    builder. *)
Definition main : M unit :=
  StdoutLoggerBuilder.Context "ABCD" ;;
  StdoutLoggerBuilder.ShowModule true ;;
  StdoutLoggerBuilder.ShowFile true ;;
  StdoutLoggerBuilder.ShowLine true ;;
  StdoutLoggerBuilder.SetAsDefaultLogger.

(** A call of one of the five setters, with its argument. *)
Inductive Setter : Set :=
| set_Context (context : string)
| set_ShowModule (show_module : bool)
| set_ShowFile (show_file : bool)
| set_ShowLine (show_line : bool)
| set_LogLevel (log_level : LogLevel).

Definition invoke (c : Setter) : M unit :=
  match c with
  | set_Context context => StdoutLoggerBuilder.Context context
  | set_ShowModule b => StdoutLoggerBuilder.ShowModule b
  | set_ShowFile b => StdoutLoggerBuilder.ShowFile b
  | set_ShowLine b => StdoutLoggerBuilder.ShowLine b
  | set_LogLevel l => StdoutLoggerBuilder.LogLevel l
  end.

(** A chain of setter calls, first call first. *)
Fixpoint chain (cs : list Setter) : M unit :=
  match cs with
  | [] => ret tt
  | c :: cs' => invoke c ;; chain cs'
  end.

(** The member a setter call configures. *)
Definition member_of (c : Setter) : Member :=
  match c with
  | set_Context _ => m_context
  | set_ShowModule _ => m_show_module
  | set_ShowFile _ => m_show_file
  | set_ShowLine _ => m_show_line
  | set_LogLevel _ => m_log_level
  end.

(** The set S of settings configured by a chain of setter calls. *)
Definition configured (cs : list Setter) (m : Member) : bool :=
  existsb (fun c => Member_eqb (member_of c) m) cs.

(** The text of the last [Context] call of a chain, if there is one. *)
Fixpoint last_context (cs : list Setter) : option string :=
  match cs with
  | [] => None
  | c :: cs' =>
      match last_context cs' with
      | Some t => Some t
      | None => match c with set_Context t => Some t | _ => None end
      end
  end.

(* ================================================================== *)
(** * The receiving side *)
(* ================================================================== *)

(** Modelled from the spec: the body of [set_default_logger] is on the
    Rust side and not part of these sources.  The boundary contract says
    the callee "reads all provided pointers and copies every referenced
    value into its own storage before returning".  For the context this
    is a read of [context_size] bytes at [context_ptr] in the memory of
    the call; [None] when that read has no defined result.  When
    [context_size] is 0 nothing is read and the copy is the empty text. *)
Definition receiver_copies_context (c : BoundaryCall) : option string :=
  load_chars (during c) (context_ptr (args c)) (context_size (args c)).

(* ================================================================== *)
(** * Closed forms of the member functions *)
(* ================================================================== *)

(** The arguments [SetAsDefaultLogger] computes in a memory [m]: read off
    the code, and proved to be what the code passes in
    [SetAsDefaultLogger_run]. *)
Definition encoding (m : Memory) : Args :=
  let this := this_object m in
  {| context_ptr :=
       if has_value (context_ this)
       then auto_ptr (List.length (automatic m))
       else nullptr;
     context_size :=
       match context_ this with
       | Some t => N.of_nat (String.length t)
       | None => 0%N
       end;
     show_module :=
       if has_value (show_module_ this) then member_ptr m_show_module else nullptr;
     show_file :=
       if has_value (show_file_ this) then member_ptr m_show_file else nullptr;
     show_line :=
       if has_value (show_line_ this) then member_ptr m_show_line else nullptr;
     log_level :=
       if has_value (log_level_ this) then member_ptr m_log_level else nullptr |}.

Definition after_call (st : State) : State :=
  {| memory := memory st;
     calls := calls st ++ [ {| args := encoding (memory st); during := memory st |} ] |}.

(** The state with the builder object replaced: what a setter changes,
    automatic objects and the call record left alone. *)
Definition with_this (b : StdoutLoggerBuilder) (st : State) : State :=
  {| memory := {| this_object := b; automatic := automatic (memory st) |};
     calls := calls st |}.

(** The subset property read with a non-zero context length: for the set
    S configured by a chain of setter calls, the one boundary call has
    non-null pointers for the members in S and a non-zero length when
    context is in S, and null pointers for the members outside S and
    length 0 when context is outside S. *)
Definition exactly_S_with_nonzero_length (cs : list Setter) : Prop :=
  exists c st',
    (chain cs ;; StdoutLoggerBuilder.SetAsDefaultLogger) initial = Returns tt st' /\
    calls st' = [c] /\
    (forall m, configured cs m = true -> is_null (arg m (args c)) = false) /\
    (configured cs m_context = true -> context_size (args c) <> 0%N) /\
    (forall m, configured cs m = false -> is_null (arg m (args c)) = true) /\
    (configured cs m_context = false -> context_size (args c) = 0%N).

(** ** Definitions used to state further properties *)

(** The object a setter call stores in its member: its argument. *)
Definition stored_object (c : Setter) : Object :=
  match c with
  | set_Context context => obj_chars context
  | set_ShowModule b => obj_bool b
  | set_ShowFile b => obj_bool b
  | set_ShowLine b => obj_bool b
  | set_LogLevel l => obj_level l
  end.

(** The argument of the last call in a chain that [pick] selects. *)
Fixpoint last_of {A : Type} (pick : Setter -> option A) (cs : list Setter)
  : option A :=
  match cs with
  | [] => None
  | c :: cs' =>
      match last_of pick cs' with
      | Some a => Some a
      | None => pick c
      end
  end.

Definition arg_ShowModule (c : Setter) : option bool :=
  match c with set_ShowModule b => Some b | _ => None end.

Definition arg_ShowFile (c : Setter) : option bool :=
  match c with set_ShowFile b => Some b | _ => None end.

Definition arg_ShowLine (c : Setter) : option bool :=
  match c with set_ShowLine b => Some b | _ => None end.

Definition arg_LogLevel (c : Setter) : option LogLevel :=
  match c with set_LogLevel l => Some l | _ => None end.

(** A use of the builder: any sequence of setter calls and calls of
    [SetAsDefaultLogger] on the same object. *)
Inductive Op : Set :=
| op_setter (c : Setter)
| op_SetAsDefaultLogger.

Definition perform (o : Op) : M unit :=
  match o with
  | op_setter c => invoke c
  | op_SetAsDefaultLogger => StdoutLoggerBuilder.SetAsDefaultLogger
  end.

Fixpoint perform_all (ops : list Op) : M unit :=
  match ops with
  | [] => ret tt
  | o :: ops' => perform o ;; perform_all ops'
  end.

Definition is_SetAsDefaultLogger (o : Op) : bool :=
  match o with
  | op_SetAsDefaultLogger => true
  | op_setter _ => false
  end.

Lemma nth_error_pushed (l : list string) (s : string) :
  nth_error (l ++ [s]) (List.length l) = Some s.
Proof.
  induction l as [| x l IH]; simpl; [reflexivity | exact IH].
Qed.

Lemma nth_error_top (l : list string) : nth_error l (List.length l) = None.
Proof.
  induction l as [| x l IH]; simpl; [reflexivity | exact IH].
Qed.

(** [Member_eqb] decides equality, so [configured cs m] says that some
    call of the chain is a call of the setter of [m]. *)
Lemma Member_eqb_eq (a b : Member) : Member_eqb a b = true <-> a = b.
Proof.
  destruct a, b; simpl; split; intros H; try reflexivity; discriminate H.
Qed.

Lemma configured_iff (cs : list Setter) (m : Member) :
  configured cs m = true <-> exists c, In c cs /\ member_of c = m.
Proof.
  unfold configured. rewrite existsb_exists.
  split; intros (c & Hin & Hc); exists c; split; try assumption;
    apply Member_eqb_eq; assumption.
Qed.

Lemma SetAsDefaultLogger_run (st : State) :
  StdoutLoggerBuilder.SetAsDefaultLogger st = Returns tt (after_call st).
Proof.
  destruct st as [[[c sm sf sl lv] autos] cs].
  unfold StdoutLoggerBuilder.SetAsDefaultLogger, after_call, encoding.
  unfold bind, get_this; simpl.
  destruct c as [t |]; simpl.
  - unfold declare_string, size, leave_block, ret; simpl.
    rewrite nth_error_pushed; simpl.
    rewrite removelast_last.
    destruct sm, sf, sl, lv; reflexivity.
  - destruct sm, sf, sl, lv; reflexivity.
Qed.

Lemma bind_run {A B : Type} (m : M A) (k : A -> M B) (st st' : State) (a : A) :
  m st = Returns a st' -> bind m k st = k a st'.
Proof.
  intros H; unfold bind; rewrite H; reflexivity.
Qed.

Lemma invoke_run (c : Setter) (st : State) :
  exists b,
    invoke c st = Returns tt (with_this b st) /\
    (forall m, engaged b m =
               Member_eqb (member_of c) m || engaged (this_object (memory st)) m) /\
    context_ b = match c with
                 | set_Context t => Some t
                 | _ => context_ (this_object (memory st))
                 end.
Proof.
  destruct st as [[[cx sm sf sl lv] autos] cs].
  destruct c; eexists; (split; [reflexivity |]); split;
    try reflexivity; intros []; simpl; try reflexivity;
    rewrite ?orb_false_l; reflexivity.
Qed.

Lemma chain_run (cs : list Setter) : forall st : State,
  exists b,
    chain cs st = Returns tt (with_this b st) /\
    (forall m, engaged b m = configured cs m || engaged (this_object (memory st)) m) /\
    context_ b = match last_context cs with
                 | Some t => Some t
                 | None => context_ (this_object (memory st))
                 end.
Proof.
  induction cs as [| c cs IH]; intros st.
  - exists (this_object (memory st)).
    destruct st as [[b autos] k]; simpl; repeat split; reflexivity.
  - destruct (invoke_run c st) as (b1 & Hrun1 & Heng1 & Hctx1).
    destruct (IH (with_this b1 st)) as (b2 & Hrun2 & Heng2 & Hctx2).
    exists b2; split; [| split].
    + simpl. rewrite (bind_run _ _ _ _ _ Hrun1). exact Hrun2.
    + intros m. rewrite Heng2. simpl. rewrite Heng1.
      unfold configured; simpl.
      destruct (Member_eqb (member_of c) m), (existsb _ cs); reflexivity.
    + rewrite Hctx2. simpl. rewrite Hctx1.
      destruct (last_context cs); [reflexivity |].
      destruct c; reflexivity.
Qed.

(** Nullness of every argument follows the members of the builder. *)
Lemma encoding_null (m : Memory) (f : Member) :
  is_null (arg f (encoding m)) = negb (engaged (this_object m) f).
Proof.
  destruct m as [[c sm sf sl lv] autos].
  destruct f; simpl;
    [destruct c | destruct sm | destruct sf | destruct sl | destruct lv];
    reflexivity.
Qed.

(** The pointer taken from the block-scoped copy addresses nothing once
    the block is left, whatever the text and whatever else is alive. *)
Lemma context_ptr_dangles (st : State) (t : string) :
  context_ (this_object (memory st)) = Some t ->
  valid (memory st) (context_ptr (encoding (memory st))) = false.
Proof.
  intros H. unfold encoding, valid; simpl. rewrite H; simpl.
  rewrite nth_error_top. reflexivity.
Qed.

(** The pointers into the builder object address live values. *)
Lemma member_ptrs_valid (m : Memory) (f : Member) :
  f <> m_context ->
  is_null (arg f (encoding m)) = false ->
  valid m (arg f (encoding m)) = true.
Proof.
  destruct m as [[c sm sf sl lv] autos].
  destruct f; simpl; intros Hf Hn; try congruence;
    unfold valid; simpl;
    [destruct sm | destruct sf | destruct sl | destruct lv];
    simpl in *; congruence.
Qed.

Ltac run_setters st :=
  destruct st as [[[? ? ? ? ?] ?] ?];
  unfold bind; simpl; rewrite ?SetAsDefaultLogger_run.

(* ================================================================== *)
(** * Properties of the boundary call *)
(* ================================================================== *)

(** C1 (the code departs from the claim).  Evaluated on the builder of
    [main.cpp] reduced to its [Context] call: after [Context("ABCD")],
    [SetAsDefaultLogger] makes one call whose [context_ptr] is not null
    and addresses the block-scoped copy [value], which is no longer alive
    while the call runs, so the pointer is not valid during the call.  The
    claim asks for a pointer that stays valid until the call returns. *)
Theorem context_ptr_not_valid_during_call :
  exists c st',
    (StdoutLoggerBuilder.Context "ABCD" ;;
     StdoutLoggerBuilder.SetAsDefaultLogger) initial = Returns tt st' /\
    calls st' = [c] /\
    context_ptr (args c) = auto_ptr 0 /\
    automatic (during c) = [] /\
    context_ (this_object (during c)) = Some "ABCD" /\
    valid (during c) (context_ptr (args c)) = false.
Proof.
  do 2 eexists. split; [reflexivity |].
  simpl. repeat split; reflexivity.
Qed.

(** C2 (counterexample).  With S = {context} configured by [Context("")],
    the context pointer is non-null but the length passed is 0. *)
Lemma empty_context_has_zero_length :
  ~ exactly_S_with_nonzero_length [set_Context ""].
Proof.
  intros (c & st' & Hrun & Hcalls & _ & Hlen & _).
  vm_compute in Hrun. injection Hrun as <-.
  simpl in Hcalls. injection Hcalls as <-.
  apply Hlen; reflexivity.
Qed.

(** C2 (amended).  For every chain of setter calls on a fresh builder,
    [SetAsDefaultLogger] makes exactly one boundary call; a pointer
    argument is non-null exactly for the members the chain configured; and
    the context length is the byte length of the text of the last
    [Context] call (0 when that text is empty), and 0 when context was not
    configured. *)
Theorem pointers_non_null_exactly_on_S (cs : list Setter) :
  exists c st',
    (chain cs ;; StdoutLoggerBuilder.SetAsDefaultLogger) initial = Returns tt st' /\
    calls st' = [c] /\
    (forall m, is_null (arg m (args c)) = negb (configured cs m)) /\
    context_size (args c) =
      match last_context cs with
      | Some t => N.of_nat (String.length t)
      | None => 0%N
      end.
Proof.
  destruct (chain_run cs initial) as (b & Hrun & Heng & Hctx).
  do 2 eexists. split; [| split; [| split]].
  - rewrite (bind_run _ _ _ _ _ Hrun), SetAsDefaultLogger_run. reflexivity.
  - reflexivity.
  - intros m. simpl. rewrite encoding_null. simpl. rewrite Heng.
    destruct m; simpl; rewrite orb_false_r; reflexivity.
  - simpl. rewrite Hctx. simpl. destruct (last_context cs); reflexivity.
Qed.

(** C3 (the code departs from the claim).  Evaluated at T = "ABCD": the
    call carries length 4 and a pointer to the destroyed copy, so the
    receiver's read of 4 bytes through it has no defined result; it is not
    the text "ABCD" that was set. *)
Theorem receiver_cannot_copy_context :
  exists c st',
    (StdoutLoggerBuilder.Context "ABCD" ;;
     StdoutLoggerBuilder.SetAsDefaultLogger) initial = Returns tt st' /\
    calls st' = [c] /\
    context_size (args c) = 4%N /\
    receiver_copies_context c = None /\
    receiver_copies_context c <> Some "ABCD".
Proof.
  do 2 eexists. split; [reflexivity |].
  simpl. repeat split; try reflexivity. discriminate.
Qed.

(** C4.  [SetAsDefaultLogger] on a builder no setter was called on makes
    one call with all five pointers null and context length 0. *)
Theorem fresh_builder_passes_all_null :
  exists st',
    StdoutLoggerBuilder.SetAsDefaultLogger initial = Returns tt st' /\
    map args (calls st') =
      [ {| context_ptr := nullptr;
           context_size := 0%N;
           show_module := nullptr;
           show_file := nullptr;
           show_line := nullptr;
           log_level := nullptr |} ].
Proof.
  eexists. split; reflexivity.
Qed.

(** C5.  For each of the seven levels, [LogLevel(level)] followed by
    [SetAsDefaultLogger] passes a non-null [log_level] pointer behind
    which the callee finds the level's ordinal; the ordinals are Off=0,
    Fatal=1, Error=2, Warn=3, Info=4, Debug=5, Verbose=6; and the mapping
    is a bijection between the seven levels and 0..6. *)
Theorem LogLevel_passes_its_ordinal :
  (forall (l : LogLevel) (st : State),
     exists c st',
       (StdoutLoggerBuilder.LogLevel l ;;
        StdoutLoggerBuilder.SetAsDefaultLogger) st = Returns tt st' /\
       calls st' = calls st ++ [c] /\
       is_null (log_level (args c)) = false /\
       load_level (during c) (log_level (args c)) = Some (LogLevel_ordinal l)) /\
  map LogLevel_ordinal all_levels = [0; 1; 2; 3; 4; 5; 6]%Z /\
  (forall l : LogLevel, In l all_levels) /\
  (forall l : LogLevel, LogLevel_of_ordinal (LogLevel_ordinal l) = Some l) /\
  (forall z : Z,
     (0 <= z <= 6)%Z ->
     exists l, LogLevel_of_ordinal z = Some l /\ LogLevel_ordinal l = z) /\
  (forall z : Z, (z < 0 \/ 6 < z)%Z -> LogLevel_of_ordinal z = None).
Proof.
  split; [| split; [| split; [| split; [| split]]]].
  - intros l st. run_setters st.
    do 2 eexists. split; [reflexivity |].
    simpl. repeat split; reflexivity.
  - reflexivity.
  - intros []; simpl; tauto.
  - intros []; reflexivity.
  - intros z Hz.
    assert (z = 0 \/ z = 1 \/ z = 2 \/ z = 3 \/ z = 4 \/ z = 5 \/ z = 6)%Z
      as Hcases by lia.
    repeat (destruct Hcases as [-> | Hcases]; [eexists; split; reflexivity |]).
    subst z. eexists; split; reflexivity.
  - intros z Hz.
    destruct z as [| p | p]; [lia | | reflexivity].
    destruct p as [[[|[]|]|[]|]|[[]|[]|]|]; try reflexivity; lia.
Qed.

(** C6.  A second call of the same setter replaces what the first one
    stored.  For each of the five setters and all arguments [x] and [y],
    after the setter is called with [x] and then with [y] the member
    holds [y], the state is the one the call with [y] alone would leave,
    and [SetAsDefaultLogger] passes a non-null pointer behind which the
    callee finds [y] (for the level its ordinal; for the context the byte
    length passed is that of [y]).  In particular [ShowModule(true);
    ShowModule(false); SetAsDefaultLogger()] passes a non-null
    [show_module] pointer behind which the callee finds [false], not
    [true]. *)
Theorem last_setter_call_wins :
  (forall (x y : string) (st : State),
     (StdoutLoggerBuilder.Context x ;; StdoutLoggerBuilder.Context y) st
       = StdoutLoggerBuilder.Context y st) /\
  (forall (x y : bool) (st : State),
     (StdoutLoggerBuilder.ShowModule x ;; StdoutLoggerBuilder.ShowModule y) st
       = StdoutLoggerBuilder.ShowModule y st) /\
  (forall (x y : bool) (st : State),
     (StdoutLoggerBuilder.ShowFile x ;; StdoutLoggerBuilder.ShowFile y) st
       = StdoutLoggerBuilder.ShowFile y st) /\
  (forall (x y : bool) (st : State),
     (StdoutLoggerBuilder.ShowLine x ;; StdoutLoggerBuilder.ShowLine y) st
       = StdoutLoggerBuilder.ShowLine y st) /\
  (forall (x y : LogLevel) (st : State),
     (StdoutLoggerBuilder.LogLevel x ;; StdoutLoggerBuilder.LogLevel y) st
       = StdoutLoggerBuilder.LogLevel y st) /\
  (forall st : State,
     exists c st',
       (StdoutLoggerBuilder.ShowModule true ;;
        StdoutLoggerBuilder.ShowModule false ;;
        StdoutLoggerBuilder.SetAsDefaultLogger) st = Returns tt st' /\
       calls st' = calls st ++ [c] /\
       is_null (show_module (args c)) = false /\
       load_bool (during c) (show_module (args c)) = Some false /\
       load_bool (during c) (show_module (args c)) <> Some true) /\
  (forall (x y : string) (st : State),
     exists c st',
       (StdoutLoggerBuilder.Context x ;;
        StdoutLoggerBuilder.Context y ;;
        StdoutLoggerBuilder.SetAsDefaultLogger) st = Returns tt st' /\
       calls st' = calls st ++ [c] /\
       context_ (this_object (memory st')) = Some y /\
       is_null (context_ptr (args c)) = false /\
       context_size (args c) = N.of_nat (String.length y)) /\
  (forall (x y : bool) (st : State),
     exists c st',
       (StdoutLoggerBuilder.ShowModule x ;;
        StdoutLoggerBuilder.ShowModule y ;;
        StdoutLoggerBuilder.SetAsDefaultLogger) st = Returns tt st' /\
       calls st' = calls st ++ [c] /\
       show_module_ (this_object (memory st')) = Some y /\
       is_null (show_module (args c)) = false /\
       load_bool (during c) (show_module (args c)) = Some y) /\
  (forall (x y : bool) (st : State),
     exists c st',
       (StdoutLoggerBuilder.ShowFile x ;;
        StdoutLoggerBuilder.ShowFile y ;;
        StdoutLoggerBuilder.SetAsDefaultLogger) st = Returns tt st' /\
       calls st' = calls st ++ [c] /\
       show_file_ (this_object (memory st')) = Some y /\
       is_null (show_file (args c)) = false /\
       load_bool (during c) (show_file (args c)) = Some y) /\
  (forall (x y : bool) (st : State),
     exists c st',
       (StdoutLoggerBuilder.ShowLine x ;;
        StdoutLoggerBuilder.ShowLine y ;;
        StdoutLoggerBuilder.SetAsDefaultLogger) st = Returns tt st' /\
       calls st' = calls st ++ [c] /\
       show_line_ (this_object (memory st')) = Some y /\
       is_null (show_line (args c)) = false /\
       load_bool (during c) (show_line (args c)) = Some y) /\
  (forall (x y : LogLevel) (st : State),
     exists c st',
       (StdoutLoggerBuilder.LogLevel x ;;
        StdoutLoggerBuilder.LogLevel y ;;
        StdoutLoggerBuilder.SetAsDefaultLogger) st = Returns tt st' /\
       calls st' = calls st ++ [c] /\
       log_level_ (this_object (memory st')) = Some y /\
       is_null (log_level (args c)) = false /\
       load_level (during c) (log_level (args c)) = Some (LogLevel_ordinal y)).
Proof.
  split; [intros x y st; reflexivity |].
  split; [intros x y st; reflexivity |].
  split; [intros x y st; reflexivity |].
  split; [intros x y st; reflexivity |].
  split; [intros x y st; reflexivity |].
  split.
  { intros st. run_setters st.
    do 2 eexists. split; [reflexivity |].
    simpl. repeat split; try reflexivity. discriminate. }
  repeat split; intros x y st; run_setters st;
    (do 2 eexists; split; [reflexivity |]);
    simpl; repeat split; reflexivity.
Qed.

(** C7 (the code departs from the claim).  The program of [main.cpp]
    makes exactly one boundary call; its three toggle pointers are
    non-null and the callee finds [true] behind each; the severity pointer
    is null; the context length is 4.  But the context pointer addresses
    the destroyed copy, so the 4 bytes the callee reads through it are not
    defined to be "ABCD". *)
Theorem main_boundary_call :
  exists c st',
    main initial = Returns tt st' /\
    calls st' = [c] /\
    args c = {| context_ptr := auto_ptr 0;
                context_size := 4%N;
                show_module := member_ptr m_show_module;
                show_file := member_ptr m_show_file;
                show_line := member_ptr m_show_line;
                log_level := nullptr |} /\
    load_bool (during c) (show_module (args c)) = Some true /\
    load_bool (during c) (show_file (args c)) = Some true /\
    load_bool (during c) (show_line (args c)) = Some true /\
    automatic (during c) = [] /\
    load_chars (during c) (context_ptr (args c)) (context_size (args c)) = None.
Proof.
  do 2 eexists. split; [reflexivity |].
  simpl. repeat split; reflexivity.
Qed.

(** C8.  No member function raises: from every state, every setter
    returns, every chain of setter calls returns, and [SetAsDefaultLogger]
    after any chain returns; [std::optional::value] is only reached on a
    member that holds a value.  The callee is [void] and nothing it does
    comes back to the caller. *)
Theorem no_member_function_throws :
  (forall (c : Setter) (st : State), exists st', invoke c st = Returns tt st') /\
  (forall st : State,
     exists st', StdoutLoggerBuilder.SetAsDefaultLogger st = Returns tt st') /\
  (forall (cs : list Setter) (st : State),
     exists st',
       (chain cs ;; StdoutLoggerBuilder.SetAsDefaultLogger) st = Returns tt st').
Proof.
  split; [| split].
  - intros c st. destruct (invoke_run c st) as (b & Hrun & _).
    eexists; exact Hrun.
  - intros st. eexists. apply SetAsDefaultLogger_run.
  - intros cs st. destruct (chain_run cs st) as (b & Hrun & _).
    eexists. rewrite (bind_run _ _ _ _ _ Hrun). apply SetAsDefaultLogger_run.
Qed.

(** C9.  [SetAsDefaultLogger] leaves the builder (and every other
    object) as it found it: the memory after the call is the memory before
    it, with the five members unchanged.  A second [SetAsDefaultLogger]
    therefore makes a call with the same arguments in the same memory as
    the first. *)
Theorem SetAsDefaultLogger_keeps_builder (st : State) :
  exists c,
    StdoutLoggerBuilder.SetAsDefaultLogger st
      = Returns tt {| memory := memory st; calls := calls st ++ [c] |} /\
    (StdoutLoggerBuilder.SetAsDefaultLogger ;;
     StdoutLoggerBuilder.SetAsDefaultLogger) st
      = Returns tt {| memory := memory st; calls := (calls st ++ [c]) ++ [c] |} /\
    this_object (during c) = this_object (memory st).
Proof.
  eexists. split; [| split].
  - rewrite SetAsDefaultLogger_run. reflexivity.
  - unfold bind. rewrite !SetAsDefaultLogger_run. reflexivity.
  - reflexivity.
Qed.

(** C10.  When the context is set to the empty string, the call passes a
    non-null context pointer and length 0; when the context is unset it
    passes the null pointer and length 0.  The two cases have the same
    length and differ in the nullness of the pointer. *)
Theorem empty_context_differs_from_unset_by_pointer_only
    (st_set st_unset : State)
    (Hset : context_ (this_object (memory st_set)) = Some "")
    (Hunset : context_ (this_object (memory st_unset)) = None) :
  exists c_set c_unset st_set' st_unset',
    StdoutLoggerBuilder.SetAsDefaultLogger st_set = Returns tt st_set' /\
    calls st_set' = calls st_set ++ [c_set] /\
    StdoutLoggerBuilder.SetAsDefaultLogger st_unset = Returns tt st_unset' /\
    calls st_unset' = calls st_unset ++ [c_unset] /\
    is_null (context_ptr (args c_set)) = false /\
    context_size (args c_set) = 0%N /\
    is_null (context_ptr (args c_unset)) = true /\
    context_size (args c_unset) = 0%N.
Proof.
  do 4 eexists.
  rewrite !SetAsDefaultLogger_run.
  split; [reflexivity |]. split; [reflexivity |].
  split; [reflexivity |]. split; [reflexivity |].
  simpl. rewrite Hset, Hunset. simpl. repeat split; reflexivity.
Qed.

Lemma empty_context_differs_from_unset_by_pointer_only_witness :
  exists c_set c_unset st_set' st_unset',
    StdoutLoggerBuilder.SetAsDefaultLogger
      (with_this (mkStdoutLoggerBuilder (Some "") None None None None) initial)
      = Returns tt st_set' /\
    calls st_set' = [] ++ [c_set] /\
    StdoutLoggerBuilder.SetAsDefaultLogger initial = Returns tt st_unset' /\
    calls st_unset' = [] ++ [c_unset] /\
    is_null (context_ptr (args c_set)) = false /\
    context_size (args c_set) = 0%N /\
    is_null (context_ptr (args c_unset)) = true /\
    context_size (args c_unset) = 0%N.
Proof.
  apply (empty_context_differs_from_unset_by_pointer_only
           (with_this (mkStdoutLoggerBuilder (Some "") None None None None) initial)
           initial);
    reflexivity.
Defined.

(* ================================================================== *)
(** * Further properties of the member functions *)
(* ================================================================== *)

Lemma substring_whole (s : string) : substring 0 (String.length s) s = s.
Proof.
  induction s as [| a s IH]; simpl; [reflexivity | rewrite IH; reflexivity].
Qed.

Lemma load_chars_whole (m : Memory) (p : Ptr) (t : string) :
  load m p = Some (obj_chars t) ->
  load_chars m p (N.of_nat (String.length t)) = Some t.
Proof.
  intros H. unfold load_chars.
  destruct t as [| a t]; [reflexivity |].
  rewrite H, N.leb_refl, Nat2N.id, substring_whole. reflexivity.
Qed.

(** What one setter call does to each scalar member. *)
Lemma invoke_members (c : Setter) (st : State) :
  exists b,
    invoke c st = Returns tt (with_this b st) /\
    show_module_ b = match arg_ShowModule c with
                     | Some a => Some a
                     | None => show_module_ (this_object (memory st))
                     end /\
    show_file_ b = match arg_ShowFile c with
                   | Some a => Some a
                   | None => show_file_ (this_object (memory st))
                   end /\
    show_line_ b = match arg_ShowLine c with
                   | Some a => Some a
                   | None => show_line_ (this_object (memory st))
                   end /\
    log_level_ b = match arg_LogLevel c with
                   | Some a => Some a
                   | None => log_level_ (this_object (memory st))
                   end.
Proof.
  destruct c; eexists; (split; [reflexivity |]); repeat split.
Qed.

Lemma chain_members (cs : list Setter) : forall st : State,
  exists b,
    chain cs st = Returns tt (with_this b st) /\
    show_module_ b = match last_of arg_ShowModule cs with
                     | Some a => Some a
                     | None => show_module_ (this_object (memory st))
                     end /\
    show_file_ b = match last_of arg_ShowFile cs with
                   | Some a => Some a
                   | None => show_file_ (this_object (memory st))
                   end /\
    show_line_ b = match last_of arg_ShowLine cs with
                   | Some a => Some a
                   | None => show_line_ (this_object (memory st))
                   end /\
    log_level_ b = match last_of arg_LogLevel cs with
                   | Some a => Some a
                   | None => log_level_ (this_object (memory st))
                   end.
Proof.
  induction cs as [| c cs IH]; intros st.
  - exists (this_object (memory st)).
    destruct st as [[b autos] k]; simpl; repeat split; reflexivity.
  - destruct (invoke_members c st) as (b1 & Hrun1 & Hm1 & Hf1 & Hl1 & Hv1).
    destruct (IH (with_this b1 st)) as (b2 & Hrun2 & Hm2 & Hf2 & Hl2 & Hv2).
    exists b2. split.
    + simpl. rewrite (bind_run _ _ _ _ _ Hrun1). exact Hrun2.
    + simpl in Hm2, Hf2, Hl2, Hv2.
      rewrite Hm2, Hf2, Hl2, Hv2, Hm1, Hf1, Hl1, Hv1. simpl.
      destruct (last_of arg_ShowModule cs), (last_of arg_ShowFile cs),
        (last_of arg_ShowLine cs), (last_of arg_LogLevel cs);
        repeat split; reflexivity.
Qed.

(** What the callee finds behind the four scalar pointers of the call
    made in memory [m]: the optional values of the builder. *)
Lemma encoding_loads (m : Memory) :
  load_bool m (show_module (encoding m)) = show_module_ (this_object m) /\
  load_bool m (show_file (encoding m)) = show_file_ (this_object m) /\
  load_bool m (show_line (encoding m)) = show_line_ (this_object m) /\
  load_level m (log_level (encoding m))
    = option_map LogLevel_ordinal (log_level_ (this_object m)).
Proof.
  destruct m as [[c sm sf sl lv] autos]. unfold load_bool, load_level. simpl.
  destruct sm, sf, sl, lv; repeat split; reflexivity.
Qed.

(** X1.  A setter call stores its argument in its own member and changes
    nothing else: the other four members hold what they held, no automatic
    object is created or destroyed, and no boundary call is made. *)
Theorem setter_changes_only_its_member (c : Setter) (st : State) :
  exists st',
    invoke c st = Returns tt st' /\
    load (memory st') (member_ptr (member_of c)) = Some (stored_object c) /\
    (forall m : Member,
       m <> member_of c ->
       load (memory st') (member_ptr m) = load (memory st) (member_ptr m)) /\
    automatic (memory st') = automatic (memory st) /\
    calls st' = calls st.
Proof.
  destruct st as [[[cx sm sf sl lv] autos] k].
  destruct c; eexists; (split; [reflexivity |]); simpl;
    (split; [reflexivity |]);
    (split; [| split; reflexivity]);
    intros [] Hm; try reflexivity; contradiction Hm; reflexivity.
Qed.

(** X2.  Setter calls for different members commute: either order leaves
    the same state. *)
Theorem setters_of_different_members_commute
    (c1 c2 : Setter) (st : State)
    (Hdiff : member_of c1 <> member_of c2) :
  (invoke c1 ;; invoke c2) st = (invoke c2 ;; invoke c1) st.
Proof.
  destruct st as [[[cx sm sf sl lv] autos] k].
  destruct c1, c2; try reflexivity; contradiction Hdiff; reflexivity.
Qed.

Lemma setters_of_different_members_commute_witness :
  (invoke (set_Context "ABCD") ;; invoke (set_LogLevel Warn)) initial
  = (invoke (set_LogLevel Warn) ;; invoke (set_Context "ABCD")) initial.
Proof.
  apply (setters_of_different_members_commute
           (set_Context "ABCD") (set_LogLevel Warn) initial).
  discriminate.
Defined.

(** X3.  From every state, the call made by [SetAsDefaultLogger] lets the
    callee recover the three toggles and the level exactly: each of the
    four pointers is null when its member is empty, and otherwise the
    value read through it during the call is the stored value (for the
    level, its ordinal, which maps back to the stored level). *)
Theorem scalar_members_round_trip (st : State) :
  exists c st',
    StdoutLoggerBuilder.SetAsDefaultLogger st = Returns tt st' /\
    calls st' = calls st ++ [c] /\
    is_null (show_module (args c))
      = negb (has_value (show_module_ (this_object (memory st)))) /\
    is_null (show_file (args c))
      = negb (has_value (show_file_ (this_object (memory st)))) /\
    is_null (show_line (args c))
      = negb (has_value (show_line_ (this_object (memory st)))) /\
    is_null (log_level (args c))
      = negb (has_value (log_level_ (this_object (memory st)))) /\
    load_bool (during c) (show_module (args c))
      = show_module_ (this_object (memory st)) /\
    load_bool (during c) (show_file (args c))
      = show_file_ (this_object (memory st)) /\
    load_bool (during c) (show_line (args c))
      = show_line_ (this_object (memory st)) /\
    match load_level (during c) (log_level (args c)) with
    | Some z => LogLevel_of_ordinal z
    | None => None
    end = log_level_ (this_object (memory st)).
Proof.
  do 2 eexists. rewrite SetAsDefaultLogger_run.
  split; [reflexivity |]. split; [reflexivity |]. cbn [args during].
  destruct (encoding_loads (memory st)) as (Hm & Hf & Hl & Hv).
  pose proof (encoding_null (memory st)) as Hn.
  split; [exact (Hn m_show_module) |].
  split; [exact (Hn m_show_file) |].
  split; [exact (Hn m_show_line) |].
  split; [exact (Hn m_log_level) |].
  split; [exact Hm |]. split; [exact Hf |]. split; [exact Hl |].
  rewrite Hv. destruct (log_level_ (this_object (memory st))) as [[] |];
    reflexivity.
Qed.

(** X4.  From every state whose context holds a text [t], whatever else
    is alive, [SetAsDefaultLogger] passes a non-null context pointer and
    the byte length of [t], and the pointer addresses the block-scoped
    copy, which is not alive during the call.  For a non-empty [t] the
    callee's read of that many bytes through it has no defined result;
    for the empty [t] the callee reads 0 bytes, touches no storage and
    obtains the empty text.  The builder's own string still holds exactly
    [t] at that length during the call. *)
Theorem context_ptr_invalid_for_every_text
    (st : State) (t : string)
    (Hctx : context_ (this_object (memory st)) = Some t) :
  exists c st',
    StdoutLoggerBuilder.SetAsDefaultLogger st = Returns tt st' /\
    calls st' = calls st ++ [c] /\
    is_null (context_ptr (args c)) = false /\
    context_size (args c) = N.of_nat (String.length t) /\
    valid (during c) (context_ptr (args c)) = false /\
    (t <> "" -> receiver_copies_context c = None) /\
    (t = "" -> receiver_copies_context c = Some "") /\
    load_chars (during c) (member_ptr m_context) (context_size (args c)) = Some t.
Proof.
  do 2 eexists. rewrite SetAsDefaultLogger_run.
  split; [reflexivity |]. split; [reflexivity |].
  pose proof (context_ptr_dangles st t Hctx) as Hdangle.
  unfold valid in Hdangle.
  destruct (load (memory st) (context_ptr (encoding (memory st)))) as [o |] eqn:Hload;
    [discriminate Hdangle |].
  unfold receiver_copies_context, valid. cbn [args during].
  assert (context_size (encoding (memory st)) = N.of_nat (String.length t)) as Hsize
    by (unfold encoding; cbn [context_size]; rewrite Hctx; reflexivity).
  assert (is_null (context_ptr (encoding (memory st))) = false) as Hnull
    by (unfold encoding; cbn [context_ptr]; rewrite Hctx; reflexivity).
  rewrite Hsize, Hload, Hnull.
  split; [reflexivity |]. split; [reflexivity |]. split; [reflexivity |].
  split; [| split].
  - intros Hne. destruct t as [| a t]; [contradiction Hne; reflexivity |].
    unfold load_chars. rewrite Hload. reflexivity.
  - intros ->. reflexivity.
  - apply load_chars_whole. simpl. rewrite Hctx. reflexivity.
Qed.

Lemma context_ptr_invalid_for_every_text_witness :
  exists c st',
    StdoutLoggerBuilder.SetAsDefaultLogger
      (with_this (mkStdoutLoggerBuilder (Some "ctx") None None None None) initial)
      = Returns tt st' /\
    calls st' = [] ++ [c] /\
    is_null (context_ptr (args c)) = false /\
    context_size (args c) = N.of_nat (String.length "ctx") /\
    valid (during c) (context_ptr (args c)) = false /\
    ("ctx" <> "" -> receiver_copies_context c = None) /\
    ("ctx" = "" -> receiver_copies_context c = Some "") /\
    load_chars (during c) (member_ptr m_context) (context_size (args c))
      = Some "ctx".
Proof.
  apply (context_ptr_invalid_for_every_text
           (with_this (mkStdoutLoggerBuilder (Some "ctx") None None None None) initial)
           "ctx").
  reflexivity.
Defined.

(** X5.  After any chain of setter calls on a fresh builder, in any
    order and with any repetitions, the value the callee reads through
    each toggle pointer is the argument of the last call of that toggle's
    setter in the chain, and through the level pointer the ordinal of the
    last level given; where the chain has no such call, nothing is read
    (the pointer is null). *)
Theorem chain_passes_last_arguments (cs : list Setter) :
  exists c st',
    (chain cs ;; StdoutLoggerBuilder.SetAsDefaultLogger) initial = Returns tt st' /\
    calls st' = [c] /\
    load_bool (during c) (show_module (args c)) = last_of arg_ShowModule cs /\
    load_bool (during c) (show_file (args c)) = last_of arg_ShowFile cs /\
    load_bool (during c) (show_line (args c)) = last_of arg_ShowLine cs /\
    load_level (during c) (log_level (args c))
      = option_map LogLevel_ordinal (last_of arg_LogLevel cs) /\
    is_null (show_module (args c)) = negb (has_value (last_of arg_ShowModule cs)) /\
    is_null (show_file (args c)) = negb (has_value (last_of arg_ShowFile cs)) /\
    is_null (show_line (args c)) = negb (has_value (last_of arg_ShowLine cs)) /\
    is_null (log_level (args c)) = negb (has_value (last_of arg_LogLevel cs)).
Proof.
  destruct (chain_members cs initial) as (b & Hrun & Hm & Hf & Hl & Hv).
  do 2 eexists.
  rewrite (bind_run _ _ _ _ _ Hrun), SetAsDefaultLogger_run.
  split; [reflexivity |]. split; [reflexivity |]. cbn [args during].
  destruct (encoding_loads (memory (with_this b initial))) as (Lm & Lf & Ll & Lv).
  pose proof (encoding_null (memory (with_this b initial))) as Hn.
  simpl in Hm, Hf, Hl, Hv.
  assert (show_module_ b = last_of arg_ShowModule cs) as Em
    by (rewrite Hm; destruct (last_of arg_ShowModule cs); reflexivity).
  assert (show_file_ b = last_of arg_ShowFile cs) as Ef
    by (rewrite Hf; destruct (last_of arg_ShowFile cs); reflexivity).
  assert (show_line_ b = last_of arg_ShowLine cs) as El
    by (rewrite Hl; destruct (last_of arg_ShowLine cs); reflexivity).
  assert (log_level_ b = last_of arg_LogLevel cs) as Ev
    by (rewrite Hv; destruct (last_of arg_LogLevel cs); reflexivity).
  pose proof (Hn m_show_module) as Nm. pose proof (Hn m_show_file) as Nf.
  pose proof (Hn m_show_line) as Nl. pose proof (Hn m_log_level) as Nv.
  cbn [arg engaged] in Nm, Nf, Nl, Nv.
  rewrite Lm, Lf, Ll, Lv, Nm, Nf, Nl, Nv.
  cbn [memory with_this this_object].
  rewrite Em, Ef, El, Ev. repeat split; reflexivity.
Qed.

(** Any use of the builder returns; it records one call per
    [SetAsDefaultLogger], each with the arguments computed from the memory
    of that call, and leaves the automatic objects as they were. *)
Lemma perform_all_run (ops : list Op) : forall st : State,
  exists st' new,
    perform_all ops st = Returns tt st' /\
    calls st' = calls st ++ new /\
    List.length new = List.length (filter is_SetAsDefaultLogger ops) /\
    automatic (memory st') = automatic (memory st) /\
    Forall (fun c => args c = encoding (during c) /\
                     automatic (during c) = automatic (memory st)) new.
Proof.
  induction ops as [| o ops IH]; intros st.
  - exists st, []. simpl. rewrite app_nil_r. repeat split; constructor.
  - destruct o as [c |].
    + destruct (invoke_run c st) as (b & Hrun & _).
      destruct (IH (with_this b st)) as (st' & new & Hrest & Hcalls & Hlen & Hauto & Hall).
      exists st', new. simpl. rewrite (bind_run _ _ _ _ _ Hrun).
      repeat split; assumption.
    + destruct (IH (after_call st)) as (st' & new & Hrest & Hcalls & Hlen & Hauto & Hall).
      eexists st', (_ :: new). simpl.
      rewrite (bind_run _ _ _ _ _ (SetAsDefaultLogger_run st)).
      split; [exact Hrest |]. split; [| split; [| split]].
      * rewrite Hcalls. simpl. rewrite <- app_assoc. reflexivity.
      * simpl. rewrite Hlen. reflexivity.
      * exact Hauto.
      * constructor; [split; reflexivity | exact Hall].
Qed.

(** X6.  Any sequence of setter calls and [SetAsDefaultLogger] calls on
    one builder, in any order, runs to the end without an exception; it
    makes exactly one boundary call per [SetAsDefaultLogger] and none per
    setter, after the calls recorded before; it leaves no automatic object
    behind; and in every call it makes, each non-null toggle or level
    pointer addresses a live value. *)
Theorem every_use_of_the_builder (ops : list Op) (st : State) :
  exists st' new,
    perform_all ops st = Returns tt st' /\
    calls st' = calls st ++ new /\
    List.length new = List.length (filter is_SetAsDefaultLogger ops) /\
    automatic (memory st') = automatic (memory st) /\
    Forall (fun c =>
              forall m : Member,
                m <> m_context ->
                is_null (arg m (args c)) = false ->
                valid (during c) (arg m (args c)) = true) new.
Proof.
  destruct (perform_all_run ops st) as (st' & new & Hrun & Hcalls & Hlen & Hauto & Hall).
  exists st', new. repeat split; try assumption.
  apply Forall_forall. intros c Hin m Hm Hnull.
  rewrite Forall_forall in Hall. destruct (Hall c Hin) as (Hargs & _).
  rewrite Hargs in Hnull |- *. apply member_ptrs_valid; assumption.
Qed.
